(** * tunacode: node, stream-event and usage-normalisation types

    A shallow embedding of

      - [tunacode/types/streaming.py]   (stream events and their classifiers),
      - [tunacode/types/usage.py]       (usage normalisation),
      - [tunacode/core/agents/runner.py] (the [AgentNode] record),
      - [tunacode/tools/exceptions.py]  ([ToolRetryError]),

    together with the fragment of Python's value semantics these functions
    rely on: truthiness, the [or] operator, the built-in [int()] and the
    exceptions [int()] raises. *)

From Stdlib Require Import ZArith String Ascii List Bool Lia.
From stdpp Require Import gmap strings.

Local Open Scope string_scope.
Local Open Scope Z_scope.

(* ===================================================================== *)
(** ** Python values, as far as the modelled code observes them          *)
(* ===================================================================== *)

Module Py.

(** A Python [float].  Every finite double is [m * 2^e] for integers
    [m], [e]; the two infinities and NaN are kept apart because [int()]
    treats them separately. *)
Inductive pyfloat : Type :=
| FNan
| FInf (negative : bool)
| FFinite (m e : Z).

(** The values a field typed [Any] may hold.  [PyObj] stands for every
    other object (list, dict, Decimal, a plain instance ...): the code
    only ever asks such an object for its truth value and for its
    conversion through [int()], which succeeds exactly when the object
    defines one ([as_int = Some z]). *)
Inductive pyval : Type :=
| PyNone
| PyBool (b : bool)
| PyInt (z : Z)
| PyFloat (f : pyfloat)
| PyStr (s : string)
| PyObj (truthy : bool) (as_int : option Z).

(** The built-in exceptions [int()] can raise. *)
Inductive pyexc : Type :=
| ValueError
| TypeError
| OverflowError.


(** Outcome of a call: a value, or a raised exception that propagates. *)
Inductive result (A : Type) : Type :=
| Ok (a : A)
| Raise (e : pyexc).
Arguments Ok {A} a.
Arguments Raise {A} e.

Definition bind {A B : Type} (r : result A) (k : A -> result B) : result B :=
  match r with
  | Ok a => k a
  | Raise e => Raise e
  end.

(** [bool(v)]. *)
Definition truthy (v : pyval) : bool :=
  match v with
  | PyNone => false
  | PyBool b => b
  | PyInt z => negb (z =? 0)
  | PyFloat FNan => true
  | PyFloat (FInf _) => true
  | PyFloat (FFinite m _) => negb (m =? 0)
  | PyStr s => negb (String.eqb s "")
  | PyObj t _ => t
  end.

(** [a or b]. *)
Definition py_or (a b : pyval) : pyval :=
  if truthy a then a else b.

(** *** [int()] on text

    Leading and trailing white space is dropped, one sign is allowed,
    then decimal digits follow, single underscores being allowed between
    two digits.  Text with more digits than [INT_MAX_STR_DIGITS] is
    refused.  Strings are taken to be ASCII text. *)

Definition is_space (c : ascii) : bool :=
  let n := N_of_ascii c in
  ((9 <=? n) && (n <=? 13) || (n =? 32))%N.

Definition digit_value (c : ascii) : option Z :=
  let n := N_of_ascii c in
  if ((48 <=? n) && (n <=? 57))%N then Some (Z.of_N n - 48) else None.

Definition is_underscore (c : ascii) : bool := Ascii.eqb c "_".

Definition INT_MAX_STR_DIGITS : Z := 4300.

Fixpoint skip_space (l : list ascii) : list ascii :=
  match l with
  | [] => []
  | c :: r => if is_space c then skip_space r else l
  end.

(** Reads digits and underscores from [l].  [acc] is the value read so
    far, [digits] the number of digits read, [prev_us] tells whether the
    last character read was an underscore.  Returns the value, the digit
    count and what follows the numeral; [None] for a doubled or trailing
    underscore. *)
Fixpoint scan_digits (l : list ascii) (acc digits : Z) (prev_us : bool)
  : option (Z * Z * list ascii) :=
  match l with
  | [] => if prev_us then None else Some (acc, digits, [])
  | c :: r =>
      if is_underscore c then
        if prev_us then None else scan_digits r acc digits true
      else
        match digit_value c with
        | Some d => scan_digits r (10 * acc + d) (digits + 1) false
        | None => if prev_us then None else Some (acc, digits, l)
        end
  end.

Definition parse_unsigned (l : list ascii) : option Z :=
  match l with
  | [] => None
  | c :: _ =>
      if is_underscore c then None
      else
        match scan_digits l 0 0 false with
        | None => None
        | Some (v, digits, rest) =>
            if digits =? 0 then None
            else
              match skip_space rest with
              | [] => if INT_MAX_STR_DIGITS <? digits then None else Some v
              | _ :: _ => None
              end
        end
  end.

Definition int_of_str (s : string) : option Z :=
  match skip_space (list_ascii_of_string s) with
  | [] => None
  | c :: r =>
      if Ascii.eqb c "-" then option_map Z.opp (parse_unsigned r)
      else if Ascii.eqb c "+" then parse_unsigned r
      else parse_unsigned (c :: r)
  end.

(** [int(f)] for a float: truncation towards zero. *)
Definition float_trunc (m e : Z) : Z :=
  if 0 <=? e then m * 2 ^ e else Z.quot m (2 ^ (- e)).

(** [int(v)]. *)
Definition int (v : pyval) : result Z :=
  match v with
  | PyNone => Raise TypeError
  | PyBool b => Ok (if b then 1 else 0)
  | PyInt z => Ok z
  | PyFloat FNan => Raise ValueError
  | PyFloat (FInf _) => Raise OverflowError
  | PyFloat (FFinite m e) => Ok (float_trunc m e)
  | PyStr s =>
      match int_of_str s with
      | Some z => Ok z
      | None => Raise ValueError
      end
  | PyObj _ (Some z) => Ok z
  | PyObj _ None => Raise TypeError
  end.

(** Whether a value is a negative number, or text that carries a minus
    sign. *)
Definition negative (v : pyval) : bool :=
  match v with
  | PyInt z => z <? 0
  | PyFloat (FInf neg) => neg
  | PyFloat (FFinite m _) => m <? 0
  | PyStr s => existsb (Ascii.eqb "-") (list_ascii_of_string s)
  | PyObj _ (Some z) => z <? 0
  | _ => false
  end.

(** An object, seen through [getattr]: its attributes by name. *)
Abbreviation pyobject := (gmap string pyval).

(** [getattr(o, name, default)]. *)
Definition getattr (o : pyobject) (name : string) (default : pyval) : pyval :=
  match o !! name with
  | Some v => v
  | None => default
  end.

(** A [dict] with string keys. *)
Abbreviation pydict := (gmap string pyval).

(** [data.get(key, default)]. *)
Definition dict_get (data : pydict) (key : string) (default : pyval) : pyval :=
  match data !! key with
  | Some v => v
  | None => default
  end.

End Py.

Notation "'let!' x ':=' c1 'in' c2" := (Py.bind c1 (fun x => c2))
  (at level 10, x name, c1 at level 100, c2 at level 200).

(* ===================================================================== *)
(** ** tunacode/types/streaming.py                                       *)
(* ===================================================================== *)

Module streaming.
Import Py.

Inductive StreamEventKind : Type :=
| TEXT_DELTA
| TOOL_CALL_DELTA
| TOOL_CALL_START
| TOOL_CALL_END
| THOUGHT_DELTA
| MESSAGE_START
| MESSAGE_END
| ERROR.

Definition StreamEventKind_value (k : StreamEventKind) : string :=
  match k with
  | TEXT_DELTA => "text-delta"
  | TOOL_CALL_DELTA => "tool-call-delta"
  | TOOL_CALL_START => "tool-call-start"
  | TOOL_CALL_END => "tool-call-end"
  | THOUGHT_DELTA => "thought-delta"
  | MESSAGE_START => "message-start"
  | MESSAGE_END => "message-end"
  | ERROR => "error"
  end.

(** The union [StreamEvent].  Each dataclass keeps [kind] as an ordinary
    last field, so every constructor carries it as an argument. *)
Inductive StreamEvent : Type :=
| TextDelta (content : string) (kind : StreamEventKind)
| ThoughtDelta (content : string) (kind : StreamEventKind)
| ToolCallStart (tool_call_id tool_name : string) (kind : StreamEventKind)
| ToolCallDelta (tool_call_id args_delta : string) (kind : StreamEventKind)
| ToolCallEnd (tool_call_id tool_name : string) (args : pydict)
              (kind : StreamEventKind)
| MessageStart (message_id : option string) (kind : StreamEventKind)
| MessageEnd (message_id stop_reason : option string) (kind : StreamEventKind)
| StreamError (error : string) (recoverable : bool) (kind : StreamEventKind).

(** The dataclass defaults of [kind]. *)
Definition mkTextDelta content := TextDelta content TEXT_DELTA.
Definition mkThoughtDelta content := ThoughtDelta content THOUGHT_DELTA.
Definition mkToolCallStart id name := ToolCallStart id name TOOL_CALL_START.
Definition mkToolCallDelta id delta := ToolCallDelta id delta TOOL_CALL_DELTA.
Definition mkToolCallEnd id name args := ToolCallEnd id name args TOOL_CALL_END.
Definition mkMessageStart id := MessageStart id MESSAGE_START.
Definition mkMessageEnd id reason := MessageEnd id reason MESSAGE_END.
Definition mkStreamError error recoverable := StreamError error recoverable ERROR.

(** [event.kind]. *)
Definition kind (e : StreamEvent) : StreamEventKind :=
  match e with
  | TextDelta _ k | ThoughtDelta _ k | ToolCallStart _ _ k
  | ToolCallDelta _ _ k | ToolCallEnd _ _ _ k | MessageStart _ k
  | MessageEnd _ _ k | StreamError _ _ k => k
  end.

(** [type(event)]: the class an event is an instance of. *)
Inductive EventClass : Type :=
| TextDeltaT | ThoughtDeltaT | ToolCallStartT | ToolCallDeltaT
| ToolCallEndT | MessageStartT | MessageEndT | StreamErrorT.

Definition type_of (e : StreamEvent) : EventClass :=
  match e with
  | TextDelta _ _ => TextDeltaT
  | ThoughtDelta _ _ => ThoughtDeltaT
  | ToolCallStart _ _ _ => ToolCallStartT
  | ToolCallDelta _ _ _ => ToolCallDeltaT
  | ToolCallEnd _ _ _ _ => ToolCallEndT
  | MessageStart _ _ => MessageStartT
  | MessageEnd _ _ _ => MessageEndT
  | StreamError _ _ _ => StreamErrorT
  end.

(** [isinstance(event, TextDelta | ThoughtDelta)] *)
Definition is_content_delta (event : StreamEvent) : bool :=
  match event with
  | TextDelta _ _ | ThoughtDelta _ _ => true
  | _ => false
  end.

(** [isinstance(event, ToolCallStart | ToolCallDelta | ToolCallEnd)] *)
Definition is_tool_event (event : StreamEvent) : bool :=
  match event with
  | ToolCallStart _ _ _ | ToolCallDelta _ _ _ | ToolCallEnd _ _ _ _ => true
  | _ => false
  end.

(** The same event built again with another [kind] argument (what
    [dataclasses.replace(event, kind=k)] returns). *)
Definition with_kind (e : StreamEvent) (k : StreamEventKind) : StreamEvent :=
  match e with
  | TextDelta c _ => TextDelta c k
  | ThoughtDelta c _ => ThoughtDelta c k
  | ToolCallStart i n _ => ToolCallStart i n k
  | ToolCallDelta i d _ => ToolCallDelta i d k
  | ToolCallEnd i n a _ => ToolCallEnd i n a k
  | MessageStart i _ => MessageStart i k
  | MessageEnd i r _ => MessageEnd i r k
  | StreamError m r _ => StreamError m r k
  end.

(** The default each dataclass declares for its [kind] field. *)
Definition default_kind (c : EventClass) : StreamEventKind :=
  match c with
  | TextDeltaT => TEXT_DELTA
  | ThoughtDeltaT => THOUGHT_DELTA
  | ToolCallStartT => TOOL_CALL_START
  | ToolCallDeltaT => TOOL_CALL_DELTA
  | ToolCallEndT => TOOL_CALL_END
  | MessageStartT => MESSAGE_START
  | MessageEndT => MESSAGE_END
  | StreamErrorT => ERROR
  end.

(** The remaining bucket: message brackets and errors. *)
Definition is_message_or_error (event : StreamEvent) : bool :=
  match type_of event with
  | MessageStartT | MessageEndT | StreamErrorT => true
  | _ => false
  end.

End streaming.

(* ===================================================================== *)
(** ** tunacode/types/usage.py                                           *)
(* ===================================================================== *)

Module usage.
Import Py.

Definition USAGE_ATTR_REQUEST_TOKENS : string := "request_tokens".
Definition USAGE_ATTR_RESPONSE_TOKENS : string := "response_tokens".
Definition USAGE_ATTR_CACHED_TOKENS : string := "cached_tokens".

Definition DEFAULT_TOKEN_COUNT : Z := 0.

Record NormalizedUsage : Type := mkNormalizedUsage {
  request_tokens : Z;
  response_tokens : Z;
  cached_tokens : Z
}.

(** The property [total_tokens]. *)
Definition total_tokens (self : NormalizedUsage) : Z :=
  request_tokens self + response_tokens self.

Definition to_dict (self : NormalizedUsage) : pydict :=
  <["request_tokens" := PyInt (request_tokens self)]>
  (<["response_tokens" := PyInt (response_tokens self)]>
  (<["cached_tokens" := PyInt (cached_tokens self)]>
  (<["total_tokens" := PyInt (total_tokens self)]> ∅))).

(** [int(getattr(usage, attribute, None) or DEFAULT_TOKEN_COUNT)] *)
Definition _read_usage_value (usage : pyobject) (attribute : string)
  : result Z :=
  let raw_value := getattr usage attribute PyNone in
  int (py_or raw_value (PyInt DEFAULT_TOKEN_COUNT)).

(** The argument is [None] or an object; the three fields are read in
    the order the constructor call lists them, and the first exception
    raised propagates. *)
Definition normalize_request_usage (usage : option pyobject)
  : result (option NormalizedUsage) :=
  match usage with
  | None => Ok None
  | Some usage =>
      let! request := _read_usage_value usage USAGE_ATTR_REQUEST_TOKENS in
      let! response := _read_usage_value usage USAGE_ATTR_RESPONSE_TOKENS in
      let! cached := _read_usage_value usage USAGE_ATTR_CACHED_TOKENS in
      Ok (Some (mkNormalizedUsage request response cached))
  end.

Definition usage_from_dict (data : pydict) : result NormalizedUsage :=
  let request :=
    dict_get data "request_tokens" (dict_get data "prompt_tokens" (PyInt 0)) in
  let response :=
    dict_get data "response_tokens"
             (dict_get data "completion_tokens" (PyInt 0)) in
  let cached := dict_get data "cached_tokens" (PyInt 0) in
  let! request_tokens := int request in
  let! response_tokens := int response in
  let! cached_tokens := int cached in
  Ok (mkNormalizedUsage request_tokens response_tokens cached_tokens).

(** The values the locals [request], [response] and [cached] of
    [usage_from_dict] are bound to. *)
Definition request_local (data : pydict) : pyval :=
  dict_get data "request_tokens" (dict_get data "prompt_tokens" (PyInt 0)).

Definition response_local (data : pydict) : pyval :=
  dict_get data "response_tokens" (dict_get data "completion_tokens" (PyInt 0)).

Definition cached_local (data : pydict) : pyval :=
  dict_get data "cached_tokens" (PyInt 0).

(** An attribute that is not there, or holds a false value. *)
Definition missing_or_falsy (usage : pyobject) (attribute : string) : Prop :=
  match usage !! attribute with
  | None => True
  | Some v => truthy v = false
  end.

(** The attribute names [normalize_request_usage] reads, and the keys
    [usage_from_dict] looks up. *)
Definition usage_attributes : list string :=
  [USAGE_ATTR_REQUEST_TOKENS; USAGE_ATTR_RESPONSE_TOKENS;
   USAGE_ATTR_CACHED_TOKENS].

Definition usage_keys : list string :=
  ["request_tokens"; "prompt_tokens"; "response_tokens";
   "completion_tokens"; "cached_tokens"].

(** A [NormalizedUsage] instance seen through [getattr]: its three
    fields, the property [total_tokens] and the bound method [to_dict]
    (a true object without integer conversion).  The attributes every
    object inherits are left out; none of them is read. *)
Definition as_object (self : NormalizedUsage) : pyobject :=
  <["request_tokens" := PyInt (request_tokens self)]>
  (<["response_tokens" := PyInt (response_tokens self)]>
  (<["cached_tokens" := PyInt (cached_tokens self)]>
  (<["total_tokens" := PyInt (total_tokens self)]>
  (<["to_dict" := PyObj true None]> ∅)))).

End usage.

(* ===================================================================== *)
(** ** tunacode/core/agents/runner.py                                    *)
(* ===================================================================== *)

Module runner.
Import Py.

Module NodeKind.
Definition MODEL_REQUEST : string := "model-request".
Definition MODEL_RESPONSE : string := "model-response".
Definition TOOL_CALL : string := "tool-call".
Definition TOOL_RETURN : string := "tool-return".
Definition END : string := "end".
(** The five constants of the class, in the order it declares them. *)
Definition members : list string :=
  [MODEL_REQUEST; MODEL_RESPONSE; TOOL_CALL; TOOL_RETURN; END].
End NodeKind.

Record ToolCallInfo : Type := mkToolCallInfo {
  tool_call_id : string;
  tool_name : string;
  args : pydict
}.

Record AgentNode : Type := mkAgentNode {
  kind : string;
  content : string;
  tool_calls : list ToolCallInfo;
  tool_returns : gmap string string;
  thought : option string;
  raw : pyval
}.

(** The dataclass defaults: only [kind] is required. *)
Definition newAgentNode (kind : string) : AgentNode :=
  mkAgentNode kind "" [] ∅ None PyNone.

Definition is_model_request (self : AgentNode) : bool :=
  String.eqb (kind self) NodeKind.MODEL_REQUEST.

Definition is_end (self : AgentNode) : bool :=
  String.eqb (kind self) NodeKind.END.

(** [bool(self.tool_calls)]: a list is true when it has an element. *)
Definition has_tool_calls (self : AgentNode) : bool :=
  match tool_calls self with
  | [] => false
  | _ :: _ => true
  end.

End runner.

(* ===================================================================== *)
(** ** tunacode/tools/exceptions.py                                      *)
(* ===================================================================== *)

Module exceptions.

(** Modelled from the spec: the base class [TunaCodeError] lives in
    [tunacode/exceptions.py], which is not among the sources; the spec
    describes the tool-retry signal as an error kind whose message is
    its whole payload, so the base class is taken to be a plain
    subclass of [Exception]: its constructor stores the positional
    arguments it receives in [args] and adds nothing. *)
Record TunaCodeError : Type := mkTunaCodeError {
  args : list string
}.

Definition TunaCodeError_init (arguments : list string) : TunaCodeError :=
  mkTunaCodeError arguments.

(** [str(e)] of an exception: empty without arguments, the argument
    itself when there is one.  The tuple rendering Python uses for
    several arguments is outside this model. *)
Definition exception_str (e : TunaCodeError) : option string :=
  match args e with
  | [] => Some ""
  | [a] => Some a
  | _ :: _ :: _ => None
  end.

Record ToolRetryError : Type := mkToolRetryError {
  message : string;
  super : TunaCodeError
}.

(** [self.message = message; super().__init__(message)] *)
Definition ToolRetryError_init (message : string) : ToolRetryError :=
  mkToolRetryError message (TunaCodeError_init [message]).

End exceptions.

(* ===================================================================== *)
(** * Properties                                                         *)
(* ===================================================================== *)

(** ** Stream events *)

Section StreamEvents.
Import streaming.

Lemma is_content_delta_class (e : StreamEvent) :
  is_content_delta e = true <->
  type_of e = TextDeltaT \/ type_of e = ThoughtDeltaT.
Proof.
  split.
  - destruct e; simpl; intros H; try discriminate H; auto.
  - destruct e; simpl; intros [H | H]; try discriminate H; reflexivity.
Qed.

Lemma is_tool_event_class (e : StreamEvent) :
  is_tool_event e = true <->
  type_of e = ToolCallStartT \/ type_of e = ToolCallDeltaT
  \/ type_of e = ToolCallEndT.
Proof.
  split.
  - destruct e; simpl; intros H; try discriminate H; auto.
  - destruct e; simpl; intros [H | [H | H]]; try discriminate H; reflexivity.
Qed.

Lemma is_message_or_error_class (e : StreamEvent) :
  is_message_or_error e = true <->
  type_of e = MessageStartT \/ type_of e = MessageEndT
  \/ type_of e = StreamErrorT.
Proof.
  unfold is_message_or_error. split.
  - destruct (type_of e); intros H; try discriminate H; auto.
  - intros [H | [H | H]]; rewrite H; reflexivity.
Qed.

(** C1.  The two classifiers and the remaining bucket partition the
    stream events: [is_content_delta] holds exactly for [TextDelta] and
    [ThoughtDelta], [is_tool_event] exactly for the three tool-call
    classes, the third bucket is [MessageStart], [MessageEnd] and
    [StreamError], and for every event exactly one of the three holds (so
    their exclusive or is true and no two hold together). *)
Theorem stream_event_partition (e : streaming.StreamEvent) :
  (is_content_delta e = true <->
     type_of e = TextDeltaT \/ type_of e = ThoughtDeltaT)
  /\ (is_tool_event e = true <->
       type_of e = ToolCallStartT \/ type_of e = ToolCallDeltaT
       \/ type_of e = ToolCallEndT)
  /\ (is_message_or_error e = true <->
       type_of e = MessageStartT \/ type_of e = MessageEndT
       \/ type_of e = StreamErrorT)
  /\ ((is_content_delta e = true /\ is_tool_event e = false
        /\ is_message_or_error e = false)
      \/ (is_content_delta e = false /\ is_tool_event e = true
          /\ is_message_or_error e = false)
      \/ (is_content_delta e = false /\ is_tool_event e = false
          /\ is_message_or_error e = true))
  /\ xorb (xorb (is_content_delta e) (is_tool_event e))
          (is_message_or_error e) = true.
Proof.
  split; [apply is_content_delta_class |].
  split; [apply is_tool_event_class |].
  split; [apply is_message_or_error_class |].
  destruct e; simpl; split; try reflexivity; tauto.
Qed.

(** C10.  The classifiers look at the class of the event only, never at
    its stored [kind]: a [TextDelta] carrying any [kind] whatever, for
    instance [ERROR], is a content delta and not a tool event, and
    replacing the [kind] of any event changes neither answer. *)
Theorem classifiers_ignore_kind :
  (forall content k,
      is_content_delta (TextDelta content k) = true
      /\ is_tool_event (TextDelta content k) = false)
  /\ (forall content,
        streaming.kind (TextDelta content ERROR) = ERROR
        /\ streaming.kind (TextDelta content ERROR)
           <> streaming.kind (mkTextDelta content)
        /\ is_content_delta (TextDelta content ERROR) = true
        /\ is_tool_event (TextDelta content ERROR) = false)
  /\ (forall e k,
        streaming.kind (with_kind e k) = k
        /\ type_of (with_kind e k) = type_of e
        /\ is_content_delta (with_kind e k) = is_content_delta e
        /\ is_tool_event (with_kind e k) = is_tool_event e).
Proof.
  split; [| split].
  - intros content k. split; reflexivity.
  - intros content. simpl. repeat split; discriminate.
  - intros e k. destruct e; repeat split.
Qed.

End StreamEvents.

(** ** Agent nodes *)

Section AgentNodes.
Import Py runner.

Lemma has_tool_calls_nonempty (n : AgentNode) :
  has_tool_calls n = true <-> tool_calls n <> [].
Proof.
  unfold has_tool_calls. destruct (tool_calls n); split; intros H.
  - discriminate H.
  - contradiction H; reflexivity.
  - discriminate.
  - reflexivity.
Qed.

(** C7.  For every [AgentNode], whatever its other fields hold:
    [is_model_request] is true exactly when [kind] is ["model-request"],
    [is_end] exactly when [kind] is ["end"] (a node of kind ["end"] has
    [is_end] true and [is_model_request] false), and [has_tool_calls] is
    true exactly when [tool_calls] is not empty. *)
Theorem agent_node_queries (n : runner.AgentNode) :
  (is_model_request n = true <-> runner.kind n = "model-request")
  /\ (is_end n = true <-> runner.kind n = "end")
  /\ (has_tool_calls n = true <-> tool_calls n <> [])
  /\ (has_tool_calls n = false <-> tool_calls n = [])
  /\ (forall content calls returns thought raw,
        let node := mkAgentNode "end" content calls returns thought raw in
        is_end node = true /\ is_model_request node = false).
Proof.
  split; [apply String.eqb_eq |].
  split; [apply String.eqb_eq |].
  split; [apply has_tool_calls_nonempty |].
  split.
  - unfold has_tool_calls. destruct (tool_calls n); split; intros H;
      try reflexivity; discriminate H.
  - intros; split; reflexivity.
Qed.

End AgentNodes.

(** ** The tool-retry signal *)

Section ToolRetry.
Import exceptions.

(** C9.  For every string [m], [ToolRetryError(m)] has [message] equal to
    [m], and [m] is all it carries: the base class receives the single
    argument [m], so the text of the exception is [m] as well, and the
    whole value is determined by [m]. *)
Theorem tool_retry_error_payload (m : string) :
  message (ToolRetryError_init m) = m
  /\ exceptions.args (super (ToolRetryError_init m)) = [m]
  /\ exception_str (super (ToolRetryError_init m)) = Some m
  /\ ToolRetryError_init m = mkToolRetryError m (mkTunaCodeError [m]).
Proof. repeat split. Qed.

End ToolRetry.

(** ** Usage normalisation *)

Section Usage.
Import Py usage.

(** C2.  For every [NormalizedUsage], [total_tokens] is the sum of
    [request_tokens] and [response_tokens]; changing [cached_tokens]
    alone never changes it. *)
Theorem total_tokens_is_request_plus_response (u : usage.NormalizedUsage) :
  total_tokens u = request_tokens u + response_tokens u
  /\ (forall cached,
        total_tokens
          (mkNormalizedUsage (request_tokens u) (response_tokens u) cached)
        = total_tokens u)
  /\ (forall request response cached cached',
        total_tokens (mkNormalizedUsage request response cached)
        = total_tokens (mkNormalizedUsage request response cached')).
Proof. repeat split. Qed.

(** Membership of a literal name in [usage_attributes] or [usage_keys]. *)
Ltac key_in :=
  unfold usage_attributes, usage_keys, USAGE_ATTR_REQUEST_TOKENS,
    USAGE_ATTR_RESPONSE_TOKENS, USAGE_ATTR_CACHED_TOKENS;
  simpl; tauto.

(** *** [int()] *)

Lemma skip_space_incl (l : list ascii) (c : ascii) (r : list ascii) :
  skip_space l = c :: r -> In c l.
Proof.
  induction l as [| a l IH]; simpl; [discriminate |].
  destruct (is_space a).
  - intros H. right. apply IH, H.
  - intros H. injection H as -> _. left. reflexivity.
Qed.

Lemma digit_value_range (c : ascii) (d : Z) :
  digit_value c = Some d -> 0 <= d <= 9.
Proof.
  unfold digit_value.
  destruct ((48 <=? N_of_ascii c) && (N_of_ascii c <=? 57))%N eqn:E;
    [| discriminate].
  intros H. injection H as <-.
  apply andb_true_iff in E as [E1 E2].
  apply N.leb_le in E1, E2. lia.
Qed.

Lemma scan_digits_nonneg (l : list ascii) :
  forall acc digits prev_us v n rest,
    0 <= acc ->
    scan_digits l acc digits prev_us = Some (v, n, rest) -> 0 <= v.
Proof.
  induction l as [| c l IH]; intros acc digits prev_us v n rest Hacc; simpl.
  - destruct prev_us; [discriminate |]. intros H. injection H as <- _ _. exact Hacc.
  - destruct (is_underscore c).
    + destruct prev_us; [discriminate |]. apply IH, Hacc.
    + destruct (digit_value c) as [d |] eqn:Ed.
      * apply IH. apply digit_value_range in Ed. lia.
      * destruct prev_us; [discriminate |].
        intros H. injection H as <- _ _. exact Hacc.
Qed.

Lemma parse_unsigned_nonneg (l : list ascii) (z : Z) :
  parse_unsigned l = Some z -> 0 <= z.
Proof.
  unfold parse_unsigned. destruct l as [| c l]; [discriminate |].
  destruct (is_underscore c); [discriminate |].
  destruct (scan_digits (c :: l) 0 0 false) as [[[v n] rest] |] eqn:E;
    [| discriminate].
  destruct (n =? 0); [discriminate |].
  destruct (skip_space rest); [| discriminate].
  destruct (INT_MAX_STR_DIGITS <? n); [discriminate |].
  intros H. injection H as <-.
  eapply scan_digits_nonneg; [| exact E]. lia.
Qed.

Lemma int_of_str_nonneg (s : string) (z : Z) :
  int_of_str s = Some z ->
  existsb (Ascii.eqb "-") (list_ascii_of_string s) = false ->
  0 <= z.
Proof.
  unfold int_of_str. intros H Hminus.
  destruct (skip_space (list_ascii_of_string s)) as [| c r] eqn:E;
    [discriminate |].
  destruct (Ascii.eqb c "-") eqn:Ec.
  - apply Ascii.eqb_eq in Ec. subst c.
    apply skip_space_incl in E.
    assert (existsb (Ascii.eqb "-") (list_ascii_of_string s) = true) as Ht.
    { apply existsb_exists. exists "-"%char. split; [exact E | reflexivity]. }
    congruence.
  - destruct (Ascii.eqb c "+"); eapply parse_unsigned_nonneg; exact H.
Qed.

Lemma float_trunc_nonneg (m e : Z) : 0 <= m -> 0 <= float_trunc m e.
Proof.
  intros Hm. unfold float_trunc. destruct (0 <=? e) eqn:E.
  - apply Z.leb_le in E. apply Z.mul_nonneg_nonneg; [exact Hm |].
    apply Z.pow_nonneg. lia.
  - apply Z.leb_gt in E. apply Z.quot_pos; [exact Hm |].
    apply Z.pow_pos_nonneg; lia.
Qed.

(** [int()] of a value that is not negative is not negative. *)
Lemma int_nonneg (v : pyval) (z : Z) :
  int v = Ok z -> negative v = false -> 0 <= z.
Proof.
  destruct v as [| b | n | f | s | t [n |]]; simpl; intros H Hn;
    try discriminate H.
  - injection H as <-. destruct b; lia.
  - injection H as <-. lia.
  - destruct f as [| neg | m e]; try discriminate H.
    injection H as <-. apply float_trunc_nonneg. lia.
  - destruct (int_of_str s) as [z' |] eqn:E; [| discriminate H].
    injection H as <-. eapply int_of_str_nonneg; eassumption.
  - injection H as <-. lia.
Qed.

(** Which exception [int()] raises. *)
Lemma int_raises (v : pyval) (e : pyexc) :
  int v = Raise e ->
  (e = TypeError /\ (v = PyNone \/ exists t, v = PyObj t None))
  \/ (e = ValueError
      /\ (v = PyFloat FNan \/ exists s, v = PyStr s /\ int_of_str s = None))
  \/ (e = OverflowError /\ exists neg, v = PyFloat (FInf neg)).
Proof.
  destruct v as [| b | n | f | s | t [n |]]; simpl; intros H;
    try discriminate H.
  - injection H as <-. left. auto.
  - destruct f as [| neg | m x]; try discriminate H; injection H as <-.
    + right. left. auto.
    + right. right. eauto.
  - destruct (int_of_str s) eqn:E; [discriminate H |].
    injection H as <-. right. left. split; [reflexivity |]. right. eauto.
  - injection H as <-. left. eauto.
Qed.


(** *** Reading one attribute *)

Lemma read_usage_value_cases (o : pyobject) (a : string) :
  _read_usage_value o a =
  match o !! a with
  | Some v => if truthy v then int v else Ok 0
  | None => Ok 0
  end.
Proof.
  unfold _read_usage_value, getattr, py_or.
  destruct (o !! a) as [v |]; [| reflexivity].
  destruct (truthy v); reflexivity.
Qed.

Lemma read_usage_value_default (o : pyobject) (a : string) :
  missing_or_falsy o a -> _read_usage_value o a = Ok 0.
Proof.
  unfold missing_or_falsy. rewrite read_usage_value_cases.
  destruct (o !! a) as [v |]; [| reflexivity].
  intros ->. reflexivity.
Qed.

Lemma read_usage_value_present (o : pyobject) (a : string) (v : pyval) :
  o !! a = Some v -> truthy v = true -> _read_usage_value o a = int v.
Proof.
  intros Ha Ht. rewrite read_usage_value_cases, Ha, Ht. reflexivity.
Qed.

Lemma read_usage_value_int (o : pyobject) (a : string) (z : Z) :
  o !! a = Some (PyInt z) -> _read_usage_value o a = Ok z.
Proof.
  intros H. rewrite read_usage_value_cases, H. simpl.
  destruct (z =? 0) eqn:E; [| reflexivity].
  apply Z.eqb_eq in E. subst z. reflexivity.
Qed.

(** An attribute that is missing or holds an integer is always read. *)
Lemma read_usage_value_returns_on_integer (o : pyobject) (a : string) :
  (forall v, o !! a = Some v -> exists z, v = PyInt z) ->
  exists z, _read_usage_value o a = Ok z.
Proof.
  intros H. destruct (o !! a) as [v |] eqn:E.
  - destruct (H v eq_refl) as [z ->]. exists z.
    apply read_usage_value_int, E.
  - exists 0. rewrite read_usage_value_cases, E. reflexivity.
Qed.

Lemma read_usage_value_nonneg (o : pyobject) (a : string) (z : Z) :
  _read_usage_value o a = Ok z ->
  (forall v, o !! a = Some v -> negative v = false) ->
  0 <= z.
Proof.
  rewrite read_usage_value_cases. intros H Hn.
  destruct (o !! a) as [v |].
  - destruct (truthy v).
    + eapply int_nonneg; [exact H | apply Hn; reflexivity].
    + injection H as <-. lia.
  - injection H as <-. lia.
Qed.

(** *** The object path *)

Lemma normalize_Some_inv (o : pyobject) (r : option NormalizedUsage) :
  normalize_request_usage (Some o) = Ok r ->
  exists u,
    r = Some u
    /\ _read_usage_value o "request_tokens" = Ok (request_tokens u)
    /\ _read_usage_value o "response_tokens" = Ok (response_tokens u)
    /\ _read_usage_value o "cached_tokens" = Ok (cached_tokens u).
Proof.
  unfold normalize_request_usage, USAGE_ATTR_REQUEST_TOKENS,
    USAGE_ATTR_RESPONSE_TOKENS, USAGE_ATTR_CACHED_TOKENS.
  destruct (_read_usage_value o "request_tokens") as [a |]; [| discriminate].
  destruct (_read_usage_value o "response_tokens") as [b |]; [| discriminate].
  destruct (_read_usage_value o "cached_tokens") as [c |]; [| discriminate].
  simpl. intros H. injection H as <-.
  exists (mkNormalizedUsage a b c). auto.
Qed.

Lemma normalize_Some_intro (o : pyobject) (a b c : Z) :
  _read_usage_value o "request_tokens" = Ok a ->
  _read_usage_value o "response_tokens" = Ok b ->
  _read_usage_value o "cached_tokens" = Ok c ->
  normalize_request_usage (Some o) = Ok (Some (mkNormalizedUsage a b c)).
Proof.
  unfold normalize_request_usage, USAGE_ATTR_REQUEST_TOKENS,
    USAGE_ATTR_RESPONSE_TOKENS, USAGE_ATTR_CACHED_TOKENS.
  intros -> -> ->. reflexivity.
Qed.


(** C3.  [normalize_request_usage(None)] is [None].  For an object, each
    of the three attributes that is missing or false is read as 0, the
    result is never [None], and an object on which all three are missing
    or false (in particular one that has none of them) gives
    [NormalizedUsage(0, 0, 0)]. *)
Theorem normalize_request_usage_defaults :
  normalize_request_usage None = Ok None
  /\ (forall o a, missing_or_falsy o a -> _read_usage_value o a = Ok 0)
  /\ (forall o r,
        normalize_request_usage (Some o) = Ok r ->
        exists u,
          r = Some u
          /\ (missing_or_falsy o "request_tokens" -> request_tokens u = 0)
          /\ (missing_or_falsy o "response_tokens" -> response_tokens u = 0)
          /\ (missing_or_falsy o "cached_tokens" -> cached_tokens u = 0))
  /\ (forall o,
        missing_or_falsy o "request_tokens" ->
        missing_or_falsy o "response_tokens" ->
        missing_or_falsy o "cached_tokens" ->
        normalize_request_usage (Some o) = Ok (Some (mkNormalizedUsage 0 0 0)))
  /\ (forall o : pyobject,
        o !! "request_tokens" = None ->
        o !! "response_tokens" = None ->
        o !! "cached_tokens" = None ->
        normalize_request_usage (Some o) = Ok (Some (mkNormalizedUsage 0 0 0))).
Proof.
  split; [reflexivity |].
  split; [exact read_usage_value_default |].
  split; [| split].
  - intros o r H. apply normalize_Some_inv in H as (u & -> & Hq & Hs & Hc).
    exists u. split; [reflexivity |].
    repeat split; intros Hm; apply read_usage_value_default in Hm; congruence.
  - intros o Hq Hs Hc.
    apply normalize_Some_intro; apply read_usage_value_default; assumption.
  - intros o Hq Hs Hc.
    apply normalize_Some_intro; apply read_usage_value_default;
      unfold missing_or_falsy; rewrite ?Hq, ?Hs, ?Hc; exact I.
Qed.

Lemma normalize_request_usage_defaults_witness :
  normalize_request_usage (Some (<["response_tokens" := PyStr ""]> ∅))
  = Ok (Some (mkNormalizedUsage 0 0 0)).
Proof.
  apply (proj1 (proj2 (proj2 (proj2 normalize_request_usage_defaults))));
    vm_compute; auto.
Defined.

(** *** The mapping path *)

Lemma usage_from_dict_locals (d : pydict) :
  usage_from_dict d =
  let! a := int (request_local d) in
  let! b := int (response_local d) in
  let! c := int (cached_local d) in
  Ok (mkNormalizedUsage a b c).
Proof. reflexivity. Qed.

Lemma usage_from_dict_Ok_inv (d : pydict) (u : NormalizedUsage) :
  usage_from_dict d = Ok u ->
  int (request_local d) = Ok (request_tokens u)
  /\ int (response_local d) = Ok (response_tokens u)
  /\ int (cached_local d) = Ok (cached_tokens u).
Proof.
  rewrite usage_from_dict_locals.
  destruct (int (request_local d)) as [a |]; [| discriminate].
  destruct (int (response_local d)) as [b |]; [| discriminate].
  destruct (int (cached_local d)) as [c |]; [| discriminate].
  simpl. intros H. injection H as <-. auto.
Qed.

Lemma usage_from_dict_Ok_intro (d : pydict) (a b c : Z) :
  int (request_local d) = Ok a ->
  int (response_local d) = Ok b ->
  int (cached_local d) = Ok c ->
  usage_from_dict d = Ok (mkNormalizedUsage a b c).
Proof. rewrite usage_from_dict_locals. intros -> -> ->. reflexivity. Qed.


(** What each local is bound to, by the keys present. *)
Lemma request_local_canonical (d : pydict) (v : pyval) :
  d !! "request_tokens" = Some v -> request_local d = v.
Proof. unfold request_local, dict_get. intros ->. reflexivity. Qed.

Lemma request_local_alternate (d : pydict) (v : pyval) :
  d !! "request_tokens" = None -> d !! "prompt_tokens" = Some v ->
  request_local d = v.
Proof. unfold request_local, dict_get. intros -> ->. reflexivity. Qed.

Lemma request_local_default (d : pydict) :
  d !! "request_tokens" = None -> d !! "prompt_tokens" = None ->
  request_local d = PyInt 0.
Proof. unfold request_local, dict_get. intros -> ->. reflexivity. Qed.

Lemma response_local_canonical (d : pydict) (v : pyval) :
  d !! "response_tokens" = Some v -> response_local d = v.
Proof. unfold response_local, dict_get. intros ->. reflexivity. Qed.

Lemma response_local_alternate (d : pydict) (v : pyval) :
  d !! "response_tokens" = None -> d !! "completion_tokens" = Some v ->
  response_local d = v.
Proof. unfold response_local, dict_get. intros -> ->. reflexivity. Qed.

Lemma response_local_default (d : pydict) :
  d !! "response_tokens" = None -> d !! "completion_tokens" = None ->
  response_local d = PyInt 0.
Proof. unfold response_local, dict_get. intros -> ->. reflexivity. Qed.

Lemma cached_local_present (d : pydict) (v : pyval) :
  d !! "cached_tokens" = Some v -> cached_local d = v.
Proof. unfold cached_local, dict_get. intros ->. reflexivity. Qed.

Lemma cached_local_default (d : pydict) :
  d !! "cached_tokens" = None -> cached_local d = PyInt 0.
Proof. unfold cached_local, dict_get. intros ->. reflexivity. Qed.

(** Each local is the default 0 or a value stored under one of the keys
    read. *)
Lemma request_local_source (d : pydict) :
  request_local d = PyInt 0
  \/ d !! "request_tokens" = Some (request_local d)
  \/ d !! "prompt_tokens" = Some (request_local d).
Proof.
  unfold request_local, dict_get.
  destruct (d !! "request_tokens"); [auto |].
  destruct (d !! "prompt_tokens"); auto.
Qed.

Lemma response_local_source (d : pydict) :
  response_local d = PyInt 0
  \/ d !! "response_tokens" = Some (response_local d)
  \/ d !! "completion_tokens" = Some (response_local d).
Proof.
  unfold response_local, dict_get.
  destruct (d !! "response_tokens"); [auto |].
  destruct (d !! "completion_tokens"); auto.
Qed.

Lemma cached_local_source (d : pydict) :
  cached_local d = PyInt 0 \/ d !! "cached_tokens" = Some (cached_local d).
Proof.
  unfold cached_local, dict_get. destruct (d !! "cached_tokens"); auto.
Qed.

(** C5.  [usage_from_dict] takes the request count from
    ["request_tokens"], from ["prompt_tokens"] only when that key is
    absent, and 0 when both are; the response count likewise from
    ["response_tokens"], then ["completion_tokens"], then 0; the cached
    count from ["cached_tokens"] or 0.  It returns whenever the values it
    reads are integers, and the two spellings of the mapping with 5 and 7
    both give [NormalizedUsage(5, 7, 0)]. *)
Theorem usage_from_dict_key_fallback :
  (forall d u,
      usage_from_dict d = Ok u ->
      (forall v, d !! "request_tokens" = Some v ->
                 int v = Ok (request_tokens u))
      /\ (forall v, d !! "request_tokens" = None ->
                    d !! "prompt_tokens" = Some v ->
                    int v = Ok (request_tokens u))
      /\ (d !! "request_tokens" = None -> d !! "prompt_tokens" = None ->
          request_tokens u = 0)
      /\ (forall v, d !! "response_tokens" = Some v ->
                    int v = Ok (response_tokens u))
      /\ (forall v, d !! "response_tokens" = None ->
                    d !! "completion_tokens" = Some v ->
                    int v = Ok (response_tokens u))
      /\ (d !! "response_tokens" = None -> d !! "completion_tokens" = None ->
          response_tokens u = 0)
      /\ (forall v, d !! "cached_tokens" = Some v ->
                    int v = Ok (cached_tokens u))
      /\ (d !! "cached_tokens" = None -> cached_tokens u = 0))
  /\ (forall d : pydict,
        (forall k v, In k usage_keys -> d !! k = Some v ->
                     exists z, v = PyInt z) ->
        exists u, usage_from_dict d = Ok u)
  /\ usage_from_dict
       (<["prompt_tokens" := PyInt 5]> (<["completion_tokens" := PyInt 7]> ∅))
     = Ok (mkNormalizedUsage 5 7 0)
  /\ usage_from_dict
       (<["request_tokens" := PyInt 5]> (<["response_tokens" := PyInt 7]> ∅))
     = Ok (mkNormalizedUsage 5 7 0)
  /\ usage_from_dict
       (<["prompt_tokens" := PyInt 5]> (<["completion_tokens" := PyInt 7]> ∅))
     = usage_from_dict
         (<["request_tokens" := PyInt 5]> (<["response_tokens" := PyInt 7]> ∅)).
Proof.
  split; [| split; [| repeat split; vm_compute; reflexivity]].
  - intros d u H. apply usage_from_dict_Ok_inv in H as (Hq & Hs & Hc).
    repeat split.
    + intros v Hv. rewrite <- (request_local_canonical d v Hv). exact Hq.
    + intros v Hn Hv. rewrite <- (request_local_alternate d v Hn Hv). exact Hq.
    + intros Hn Hp. rewrite (request_local_default d Hn Hp) in Hq.
      simpl in Hq. congruence.
    + intros v Hv. rewrite <- (response_local_canonical d v Hv). exact Hs.
    + intros v Hn Hv. rewrite <- (response_local_alternate d v Hn Hv). exact Hs.
    + intros Hn Hp. rewrite (response_local_default d Hn Hp) in Hs.
      simpl in Hs. congruence.
    + intros v Hv. rewrite <- (cached_local_present d v Hv). exact Hc.
    + intros Hn. rewrite (cached_local_default d Hn) in Hc.
      simpl in Hc. congruence.
  - intros d Hint.
    assert (exists a, int (request_local d) = Ok a) as [a Ha].
    { destruct (request_local_source d) as [E | [E | E]].
      - rewrite E. simpl. eauto.
      - apply Hint in E as [z ->]; [simpl; eauto | key_in].
      - apply Hint in E as [z ->]; [simpl; eauto | key_in]. }
    assert (exists b, int (response_local d) = Ok b) as [b Hb].
    { destruct (response_local_source d) as [E | [E | E]].
      - rewrite E. simpl. eauto.
      - apply Hint in E as [z ->]; [simpl; eauto | key_in].
      - apply Hint in E as [z ->]; [simpl; eauto | key_in]. }
    assert (exists c, int (cached_local d) = Ok c) as [c Hc].
    { destruct (cached_local_source d) as [E | E].
      - rewrite E. simpl. eauto.
      - apply Hint in E as [z ->]; [simpl; eauto | key_in]. }
    exists (mkNormalizedUsage a b c).
    apply usage_from_dict_Ok_intro; assumption.
Qed.

Lemma usage_from_dict_key_fallback_witness :
  int (PyStr "12") = Ok (request_tokens (mkNormalizedUsage 12 0 0))
  /\ exists u, usage_from_dict (<["prompt_tokens" := PyInt 5]> ∅) = Ok u.
Proof.
  split.
  - assert (usage_from_dict (<["prompt_tokens" := PyStr "12"]> ∅)
            = Ok (mkNormalizedUsage 12 0 0)) as H by (vm_compute; reflexivity).
    apply (proj1 (proj2 (proj1 usage_from_dict_key_fallback _ _ H))
             (PyStr "12")); vm_compute; reflexivity.
  - apply (proj1 (proj2 usage_from_dict_key_fallback)).
    intros k v Hk Hv.
    destruct (decide (k = "prompt_tokens")) as [-> | Hne].
    + rewrite lookup_insert_eq in Hv. injection Hv as <-. eauto.
    + rewrite lookup_insert_ne in Hv by congruence.
      rewrite lookup_empty in Hv. discriminate Hv.
Defined.

(** A stored ["total_tokens"] entry is never looked up. *)
Lemma dict_get_insert_ne (d : pydict) (k k' : string) (v default : pyval) :
  k <> k' -> dict_get (<[k := v]> d) k' default = dict_get d k' default.
Proof. intros Hne. unfold dict_get. rewrite lookup_insert_ne by exact Hne. reflexivity. Qed.

Lemma dict_get_delete_ne (d : pydict) (k k' : string) (default : pyval) :
  k <> k' -> dict_get (delete k d) k' default = dict_get d k' default.
Proof. intros Hne. unfold dict_get. rewrite lookup_delete_ne by exact Hne. reflexivity. Qed.

Lemma usage_from_dict_ignores_total (d : pydict) (v : pyval) :
  usage_from_dict (<["total_tokens" := v]> d) = usage_from_dict d.
Proof.
  unfold usage_from_dict.
  rewrite !dict_get_insert_ne by discriminate. reflexivity.
Qed.

Lemma usage_from_dict_to_dict (u : NormalizedUsage) :
  usage_from_dict (to_dict u) = Ok u.
Proof.
  destruct u as [a b c].
  apply usage_from_dict_Ok_intro; unfold to_dict; simpl.
  - rewrite (request_local_canonical _ (PyInt a)); [reflexivity |].
    apply lookup_insert_eq.
  - rewrite (response_local_canonical _ (PyInt b)); [reflexivity |].
    rewrite lookup_insert_ne by discriminate. apply lookup_insert_eq.
  - rewrite (cached_local_present _ (PyInt c)); [reflexivity |].
    rewrite !lookup_insert_ne by discriminate. apply lookup_insert_eq.
Qed.

(** C6.  Round trip: [usage_from_dict(u.to_dict())] is [u] for every
    [NormalizedUsage] [u] (whatever the sign of its fields, so in
    particular when they are non-negative).  The ["total_tokens"] entry is
    never trusted: storing any value under that key, or removing the key,
    leaves the result of [usage_from_dict] unchanged, and the
    [total_tokens] of every result is the sum of its request and response
    fields. *)
Theorem usage_dict_round_trip :
  (forall u, usage_from_dict (to_dict u) = Ok u)
  /\ (forall u v, usage_from_dict (<["total_tokens" := v]> (to_dict u)) = Ok u)
  /\ (forall d v, usage_from_dict (<["total_tokens" := v]> d) = usage_from_dict d)
  /\ (forall d, usage_from_dict (delete "total_tokens" d) = usage_from_dict d)
  /\ (forall d u,
        usage_from_dict d = Ok u ->
        total_tokens u = request_tokens u + response_tokens u
        /\ forall v, exists u',
            usage_from_dict (<["total_tokens" := v]> d) = Ok u'
            /\ total_tokens u' = total_tokens u).
Proof.
  split; [exact usage_from_dict_to_dict |].
  split; [| split; [exact usage_from_dict_ignores_total | split]].
  - intros u v. rewrite usage_from_dict_ignores_total.
    apply usage_from_dict_to_dict.
  - intros d. unfold usage_from_dict.
    rewrite !dict_get_delete_ne by discriminate. reflexivity.
  - intros d u H. split; [reflexivity |].
    intros v. exists u. rewrite usage_from_dict_ignores_total. auto.
Qed.

Lemma usage_dict_round_trip_witness :
  total_tokens (mkNormalizedUsage 10 20 3) = 10 + 20
  /\ exists u',
      usage_from_dict
        (<["total_tokens" := PyInt 999]>
           (<["request_tokens" := PyInt 10]>
              (<["response_tokens" := PyInt 20]>
                 (<["cached_tokens" := PyInt 3]> ∅)))) = Ok u'
      /\ total_tokens u' = total_tokens (mkNormalizedUsage 10 20 3).
Proof.
  assert (usage_from_dict
            (<["request_tokens" := PyInt 10]>
               (<["response_tokens" := PyInt 20]>
                  (<["cached_tokens" := PyInt 3]> ∅)))
          = Ok (mkNormalizedUsage 10 20 3)) as H by (vm_compute; reflexivity).
  pose proof (proj2 (proj2 (proj2 (proj2 usage_dict_round_trip))) _ _ H)
    as [Ht Hv].
  split; [exact Ht | exact (Hv (PyInt 999))].
Defined.

(** *** Values [int()] cannot convert *)




(** *** Sign of the fields *)

(** On a mapping whose values under the keys read are integers, each of
    the three locals converts. *)
Lemma locals_convert_on_integers (d : pydict) :
  (forall k v, In k usage_keys -> d !! k = Some v -> exists z, v = PyInt z) ->
  (exists a, int (request_local d) = Ok a)
  /\ (exists b, int (response_local d) = Ok b)
  /\ (exists c, int (cached_local d) = Ok c).
Proof.
  intros Hint. repeat split.
  - destruct (request_local_source d) as [E | [E | E]].
    + rewrite E. simpl. eauto.
    + apply Hint in E as [z ->]; [simpl; eauto | key_in].
    + apply Hint in E as [z ->]; [simpl; eauto | key_in].
  - destruct (response_local_source d) as [E | [E | E]].
    + rewrite E. simpl. eauto.
    + apply Hint in E as [z ->]; [simpl; eauto | key_in].
    + apply Hint in E as [z ->]; [simpl; eauto | key_in].
  - destruct (cached_local_source d) as [E | E].
    + rewrite E. simpl. eauto.
    + apply Hint in E as [z ->]; [simpl; eauto | key_in].
Qed.

(** C8, as the code has it.  The fields of a [NormalizedUsage] produced by
    either path are integers, and they are non-negative provided none of
    the values supplied under the attributes or keys that are read is
    negative.  No range check is made: when the values supplied are
    integers both paths return, and an integer supplied for a field
    (under its attribute; under its canonical key, or its alternate key
    when the canonical one is absent), negative or not, is that field of
    the result. *)
Theorem usage_fields_nonneg_unless_negative_supplied :
  (forall (o : pyobject) u,
      normalize_request_usage (Some o) = Ok (Some u) ->
      (forall a v, In a usage_attributes -> o !! a = Some v ->
                   negative v = false) ->
      0 <= request_tokens u /\ 0 <= response_tokens u
      /\ 0 <= cached_tokens u)
  /\ (forall (d : pydict) u,
        usage_from_dict d = Ok u ->
        (forall k v, In k usage_keys -> d !! k = Some v ->
                     negative v = false) ->
        0 <= request_tokens u /\ 0 <= response_tokens u
        /\ 0 <= cached_tokens u)
  /\ (forall (o : pyobject),
        (forall a v, In a usage_attributes -> o !! a = Some v ->
                     exists z, v = PyInt z) ->
        exists u, normalize_request_usage (Some o) = Ok (Some u))
  /\ (forall (d : pydict),
        (forall k v, In k usage_keys -> d !! k = Some v ->
                     exists z, v = PyInt z) ->
        exists u, usage_from_dict d = Ok u)
  /\ (forall (o : pyobject) u,
        normalize_request_usage (Some o) = Ok (Some u) ->
        (forall z, o !! "request_tokens" = Some (PyInt z) ->
                   request_tokens u = z)
        /\ (forall z, o !! "response_tokens" = Some (PyInt z) ->
                      response_tokens u = z)
        /\ (forall z, o !! "cached_tokens" = Some (PyInt z) ->
                      cached_tokens u = z))
  /\ (forall (d : pydict) u,
        usage_from_dict d = Ok u ->
        (forall z, d !! "request_tokens" = Some (PyInt z) ->
                   request_tokens u = z)
        /\ (forall z, d !! "request_tokens" = None ->
                      d !! "prompt_tokens" = Some (PyInt z) ->
                      request_tokens u = z)
        /\ (forall z, d !! "response_tokens" = Some (PyInt z) ->
                      response_tokens u = z)
        /\ (forall z, d !! "response_tokens" = None ->
                      d !! "completion_tokens" = Some (PyInt z) ->
                      response_tokens u = z)
        /\ (forall z, d !! "cached_tokens" = Some (PyInt z) ->
                      cached_tokens u = z)).
Proof.
  repeat apply conj.
  - intros o u H Hn.
    apply normalize_Some_inv in H as (u' & Hu & Hq & Hs & Hc).
    injection Hu as <-.
    repeat split;
      (eapply read_usage_value_nonneg;
       [ eassumption
       | intros v Hv; eapply Hn; [| exact Hv];
         key_in ]).
  - intros d u H Hn.
    apply usage_from_dict_Ok_inv in H as (Hq & Hs & Hc).
    repeat split.
    + eapply int_nonneg; [exact Hq |].
      destruct (request_local_source d) as [E | [E | E]].
      * rewrite E. reflexivity.
      * apply (Hn "request_tokens"); [key_in | exact E].
      * apply (Hn "prompt_tokens"); [key_in | exact E].
    + eapply int_nonneg; [exact Hs |].
      destruct (response_local_source d) as [E | [E | E]].
      * rewrite E. reflexivity.
      * apply (Hn "response_tokens"); [key_in | exact E].
      * apply (Hn "completion_tokens"); [key_in | exact E].
    + eapply int_nonneg; [exact Hc |].
      destruct (cached_local_source d) as [E | E].
      * rewrite E. reflexivity.
      * apply (Hn "cached_tokens"); [key_in | exact E].
  - intros o Hint.
    destruct (read_usage_value_returns_on_integer o "request_tokens")
      as [a Ha]; [intros v; apply Hint; key_in |].
    destruct (read_usage_value_returns_on_integer o "response_tokens")
      as [b Hb]; [intros v; apply Hint; key_in |].
    destruct (read_usage_value_returns_on_integer o "cached_tokens")
      as [c Hc]; [intros v; apply Hint; key_in |].
    exists (mkNormalizedUsage a b c).
    apply normalize_Some_intro; assumption.
  - intros d Hint.
    destruct (locals_convert_on_integers d Hint)
      as ([a Ha] & [b Hb] & [c Hc]).
    exists (mkNormalizedUsage a b c).
    apply usage_from_dict_Ok_intro; assumption.
  - intros o u H.
    apply normalize_Some_inv in H as (u' & Hu & Hq & Hs & Hc).
    injection Hu as <-.
    repeat split; intros z Hz;
      rewrite (read_usage_value_int o _ z Hz) in *; congruence.
  - intros d u H.
    apply usage_from_dict_Ok_inv in H as (Hq & Hs & Hc).
    repeat split.
    + intros z Hz. rewrite (request_local_canonical d _ Hz) in Hq.
      simpl in Hq. congruence.
    + intros z Hn Hz. rewrite (request_local_alternate d _ Hn Hz) in Hq.
      simpl in Hq. congruence.
    + intros z Hz. rewrite (response_local_canonical d _ Hz) in Hs.
      simpl in Hs. congruence.
    + intros z Hn Hz. rewrite (response_local_alternate d _ Hn Hz) in Hs.
      simpl in Hs. congruence.
    + intros z Hz. rewrite (cached_local_present d _ Hz) in Hc.
      simpl in Hc. congruence.
Qed.

Lemma usage_fields_nonneg_unless_negative_supplied_witness :
  (0 <= request_tokens (mkNormalizedUsage 3 1 0)
   /\ 0 <= response_tokens (mkNormalizedUsage 3 1 0)
   /\ 0 <= cached_tokens (mkNormalizedUsage 3 1 0))
  /\ response_tokens (mkNormalizedUsage 0 (-7) 0) = -7.
Proof.
  split.
  - apply (proj1 (proj2 usage_fields_nonneg_unless_negative_supplied)
             (<["prompt_tokens" := PyStr " 3 "]>
                (<["response_tokens" := PyBool true]> ∅))).
    + vm_compute; reflexivity.
    + intros k v Hk Hv.
      destruct (decide (k = "prompt_tokens")) as [-> | Hne1].
      * rewrite lookup_insert_eq in Hv. injection Hv as <-. reflexivity.
      * rewrite lookup_insert_ne in Hv by congruence.
        destruct (decide (k = "response_tokens")) as [-> | Hne2].
        -- rewrite lookup_insert_eq in Hv. injection Hv as <-. reflexivity.
        -- rewrite lookup_insert_ne in Hv by congruence.
           rewrite lookup_empty in Hv. discriminate Hv.
  - assert (usage_from_dict (<["completion_tokens" := PyInt (-7)]> ∅)
            = Ok (mkNormalizedUsage 0 (-7) 0)) as H
        by (vm_compute; reflexivity).
    apply (proj1 (proj2 (proj2 (proj2
             (proj2 (proj2 (proj2 (proj2 (proj2
                usage_fields_nonneg_unless_negative_supplied)))) _ _ H)))));
      vm_compute; reflexivity.
Defined.

(** C8 as the spec words it fails: a negative count supplied by the
    backend goes through both paths unchanged. *)
Lemma negative_count_passes_through :
  usage_from_dict (<["request_tokens" := PyInt (-5)]> ∅)
  = Ok (mkNormalizedUsage (-5) 0 0)
  /\ normalize_request_usage (Some (<["request_tokens" := PyInt (-5)]> ∅))
     = Ok (Some (mkNormalizedUsage (-5) 0 0))
  /\ request_tokens (mkNormalizedUsage (-5) 0 0) < 0.
Proof. repeat split; vm_compute; reflexivity. Qed.

End Usage.

(* ===================================================================== *)
(** * Further properties of the code                                     *)
(* ===================================================================== *)

(** ** When the two normalisers return, and what they raise *)

Section UsageOutcome.
Import Py usage.

Ltac key_in :=
  unfold usage_attributes, usage_keys, USAGE_ATTR_REQUEST_TOKENS,
    USAGE_ATTR_RESPONSE_TOKENS, USAGE_ATTR_CACHED_TOKENS;
  simpl; tauto.

(** Closes "the call raises [e] iff the first failing step raises [e]"
    once the outcome of each of the three steps is known. *)
Ltac first_raise :=
  split;
  [ intros H; first [discriminate H | injection H as <-; eauto 8]
  | intros [H | [[[? H'] H] | ([? H'] & [? Hb] & H)]]; congruence ].

(** [usage_from_dict] returns exactly when [int()] accepts the three
    values it selected, and otherwise raises the exception of the first
    of [request], [response], [cached] that [int()] refuses. *)
Theorem usage_from_dict_outcome (d : pydict) :
  ((exists u, usage_from_dict d = Ok u) <->
     (exists a, int (request_local d) = Ok a)
     /\ (exists b, int (response_local d) = Ok b)
     /\ (exists c, int (cached_local d) = Ok c))
  /\ (forall e,
        usage_from_dict d = Raise e <->
        int (request_local d) = Raise e
        \/ ((exists a, int (request_local d) = Ok a)
            /\ int (response_local d) = Raise e)
        \/ ((exists a, int (request_local d) = Ok a)
            /\ (exists b, int (response_local d) = Ok b)
            /\ int (cached_local d) = Raise e)).
Proof.
  split.
  - split.
    + intros [u H]. apply usage_from_dict_Ok_inv in H as (Hq & Hs & Hc).
      repeat split; eauto.
    + intros ([a Ha] & [b Hb] & [c Hc]). exists (mkNormalizedUsage a b c).
      apply usage_from_dict_Ok_intro; assumption.
  - intros e. rewrite usage_from_dict_locals.
    destruct (int (request_local d)) as [a | ea];
      destruct (int (response_local d)) as [b | eb];
      destruct (int (cached_local d)) as [c | ec]; simpl;
      first_raise.
Qed.

(** [normalize_request_usage] returns a [NormalizedUsage] for an object
    exactly when [int()] accepts every true value present under the three
    attributes; otherwise it raises the exception of the first attribute,
    in the order request, response, cached, whose reading raises. *)
Theorem normalize_request_usage_outcome (o : pyobject) :
  ((exists u, normalize_request_usage (Some o) = Ok (Some u)) <->
     (forall a v, In a usage_attributes -> o !! a = Some v ->
                  truthy v = true -> exists z, int v = Ok z))
  /\ (forall e,
        normalize_request_usage (Some o) = Raise e <->
        _read_usage_value o "request_tokens" = Raise e
        \/ ((exists a, _read_usage_value o "request_tokens" = Ok a)
            /\ _read_usage_value o "response_tokens" = Raise e)
        \/ ((exists a, _read_usage_value o "request_tokens" = Ok a)
            /\ (exists b, _read_usage_value o "response_tokens" = Ok b)
            /\ _read_usage_value o "cached_tokens" = Raise e)).
Proof.
  split.
  - split.
    + intros [u H] a v Ha Hv Ht.
      apply normalize_Some_inv in H as (u' & _ & Hq & Hs & Hc).
      unfold usage_attributes, USAGE_ATTR_REQUEST_TOKENS,
        USAGE_ATTR_RESPONSE_TOKENS, USAGE_ATTR_CACHED_TOKENS in Ha.
      destruct Ha as [<- | [<- | [<- | []]]];
        rewrite (read_usage_value_present o _ v Hv Ht) in *; eauto.
    + intros H.
      assert (forall a, In a usage_attributes ->
                        exists z, _read_usage_value o a = Ok z) as Hread.
      { intros a Ha. rewrite read_usage_value_cases.
        destruct (o !! a) as [v |] eqn:Ev; [| eauto].
        destruct (truthy v) eqn:Et; [| eauto].
        apply (H a v Ha Ev Et). }
      destruct (Hread "request_tokens") as [a Ha]; [key_in |].
      destruct (Hread "response_tokens") as [b Hb]; [key_in |].
      destruct (Hread "cached_tokens") as [c Hc]; [key_in |].
      exists (mkNormalizedUsage a b c).
      apply normalize_Some_intro; assumption.
  - intros e.
    unfold normalize_request_usage, USAGE_ATTR_REQUEST_TOKENS,
      USAGE_ATTR_RESPONSE_TOKENS, USAGE_ATTR_CACHED_TOKENS.
    destruct (_read_usage_value o "request_tokens") as [a | ea];
      destruct (_read_usage_value o "response_tokens") as [b | eb];
      destruct (_read_usage_value o "cached_tokens") as [c | ec]; simpl;
      first_raise.
Qed.

End UsageOutcome.

(** ** What the normalisers read *)

Section UsageFrame.
Import Py usage.

Ltac key_in :=
  unfold usage_attributes, usage_keys, USAGE_ATTR_REQUEST_TOKENS,
    USAGE_ATTR_RESPONSE_TOKENS, USAGE_ATTR_CACHED_TOKENS;
  simpl; tauto.

Lemma read_usage_value_ext (o o' : pyobject) (a : string) :
  o !! a = o' !! a -> _read_usage_value o a = _read_usage_value o' a.
Proof. intros H. rewrite !read_usage_value_cases, H. reflexivity. Qed.

(** [normalize_request_usage] looks at the three attributes
    [request_tokens], [response_tokens] and [cached_tokens] and at nothing
    else: two objects that agree on them have the same outcome, whatever
    other attributes (a [prompt_tokens], a [total_tokens]) they carry. *)
Theorem normalize_request_usage_reads_three_attributes (o o' : pyobject) :
  (forall a, In a usage_attributes -> o !! a = o' !! a) ->
  normalize_request_usage (Some o) = normalize_request_usage (Some o').
Proof.
  intros H. unfold normalize_request_usage.
  rewrite (read_usage_value_ext o o' USAGE_ATTR_REQUEST_TOKENS)
    by (apply H; key_in).
  rewrite (read_usage_value_ext o o' USAGE_ATTR_RESPONSE_TOKENS)
    by (apply H; key_in).
  rewrite (read_usage_value_ext o o' USAGE_ATTR_CACHED_TOKENS)
    by (apply H; key_in).
  reflexivity.
Qed.

Lemma normalize_request_usage_reads_three_attributes_witness :
  normalize_request_usage (Some (<["request_tokens" := PyInt 4]> ∅))
  = normalize_request_usage
      (Some (<["prompt_tokens" := PyInt 9]>
               (<["request_tokens" := PyInt 4]> ∅))).
Proof.
  apply normalize_request_usage_reads_three_attributes.
  intros a [<- | [<- | [<- | []]]]; vm_compute; reflexivity.
Defined.

(** [usage_from_dict] looks up the five keys [request_tokens],
    [prompt_tokens], [response_tokens], [completion_tokens] and
    [cached_tokens] and no other: two mappings that agree on them have the
    same outcome. *)
Theorem usage_from_dict_reads_five_keys (d d' : pydict) :
  (forall k, In k usage_keys -> d !! k = d' !! k) ->
  usage_from_dict d = usage_from_dict d'.
Proof.
  intros H. unfold usage_from_dict, dict_get.
  rewrite <- (H "request_tokens") by key_in.
  rewrite <- (H "prompt_tokens") by key_in.
  rewrite <- (H "response_tokens") by key_in.
  rewrite <- (H "completion_tokens") by key_in.
  rewrite <- (H "cached_tokens") by key_in.
  reflexivity.
Qed.

Lemma usage_from_dict_reads_five_keys_witness :
  usage_from_dict (<["prompt_tokens" := PyInt 9]> ∅)
  = usage_from_dict
      (<["model" := PyStr "m"]> (<["prompt_tokens" := PyInt 9]> ∅)).
Proof.
  apply usage_from_dict_reads_five_keys.
  intros k [<- | [<- | [<- | [<- | [<- | []]]]]]; vm_compute; reflexivity.
Defined.

(** The fallback of [usage_from_dict] goes by the presence of the
    canonical key, not by its value: once [request_tokens] is present,
    whatever is stored under [prompt_tokens] has no effect, and likewise
    for [response_tokens] and [completion_tokens]. *)
Theorem canonical_key_shadows_alternate (d : pydict) (w : pyval) :
  (is_Some (d !! "request_tokens") ->
   usage_from_dict (<["prompt_tokens" := w]> d) = usage_from_dict d)
  /\ (is_Some (d !! "response_tokens") ->
      usage_from_dict (<["completion_tokens" := w]> d) = usage_from_dict d).
Proof.
  split; intros [v Hv]; unfold usage_from_dict, dict_get.
  - rewrite (lookup_insert_ne d "prompt_tokens" "request_tokens") by discriminate.
    rewrite (lookup_insert_ne d "prompt_tokens" "response_tokens") by discriminate.
    rewrite (lookup_insert_ne d "prompt_tokens" "completion_tokens") by discriminate.
    rewrite (lookup_insert_ne d "prompt_tokens" "cached_tokens") by discriminate.
    rewrite Hv. reflexivity.
  - rewrite (lookup_insert_ne d "completion_tokens" "request_tokens") by discriminate.
    rewrite (lookup_insert_ne d "completion_tokens" "prompt_tokens") by discriminate.
    rewrite (lookup_insert_ne d "completion_tokens" "response_tokens") by discriminate.
    rewrite (lookup_insert_ne d "completion_tokens" "cached_tokens") by discriminate.
    rewrite Hv. reflexivity.
Qed.

Lemma canonical_key_shadows_alternate_witness :
  usage_from_dict
    (<["prompt_tokens" := PyStr "n/a"]> (<["request_tokens" := PyInt 0]> ∅))
  = usage_from_dict (<["request_tokens" := PyInt 0]> ∅).
Proof.
  apply (proj1 (canonical_key_shadows_alternate
                  (<["request_tokens" := PyInt 0]> ∅) (PyStr "n/a"))).
  exists (PyInt 0). vm_compute; reflexivity.
Defined.

End UsageFrame.

(** ** The object path against the mapping path *)

Section UsagePaths.
Import Py usage.

(** Reading an attribute and converting the value selected for a key give
    the same outcome when the value, if present, is true or converts to
    0, and no alternate key steps in for an absent one. *)
Lemma read_matches_local (d : gmap string pyval) (k : string)
      (fallback : pyval) :
  (forall v, d !! k = Some v -> truthy v = true \/ int v = Ok 0) ->
  (d !! k = None -> fallback = PyInt 0) ->
  _read_usage_value d k = int (dict_get d k fallback).
Proof.
  intros Hv Hn. rewrite read_usage_value_cases. unfold dict_get.
  destruct (d !! k) as [v |].
  - destruct (Hv v eq_refl) as [-> | H0]; [reflexivity |].
    rewrite H0. destruct (truthy v); reflexivity.
  - rewrite Hn by reflexivity. reflexivity.
Qed.

(** An object and a mapping holding the same names and values give the
    same outcome through [normalize_request_usage] and [usage_from_dict]
    provided that every value present under a canonical name is true or
    converts to 0, and that [prompt_tokens] / [completion_tokens] occur
    only beside their canonical name. *)
Theorem entry_points_agree (d : gmap string pyval) :
  (forall k v, In k usage_attributes -> d !! k = Some v ->
               truthy v = true \/ int v = Ok 0) ->
  (d !! "request_tokens" = None -> d !! "prompt_tokens" = None) ->
  (d !! "response_tokens" = None -> d !! "completion_tokens" = None) ->
  normalize_request_usage (Some d)
  = (let! u := usage_from_dict d in Ok (Some u)).
Proof.
  intros Hv Hp Hc.
  unfold normalize_request_usage, usage_from_dict,
    USAGE_ATTR_REQUEST_TOKENS, USAGE_ATTR_RESPONSE_TOKENS,
    USAGE_ATTR_CACHED_TOKENS.
  rewrite (read_matches_local d "request_tokens"
             (dict_get d "prompt_tokens" (PyInt 0))).
  - rewrite (read_matches_local d "response_tokens"
               (dict_get d "completion_tokens" (PyInt 0))).
    + rewrite (read_matches_local d "cached_tokens" (PyInt 0)).
      * destruct (int (dict_get d "request_tokens" _)); [| reflexivity].
        destruct (int (dict_get d "response_tokens" _)); [| reflexivity].
        destruct (int (dict_get d "cached_tokens" _)); reflexivity.
      * intros v. apply Hv. simpl. tauto.
      * reflexivity.
    + intros v. apply Hv. simpl. tauto.
    + intros Hn. unfold dict_get. rewrite (Hc Hn). reflexivity.
  - intros v. apply Hv. simpl. tauto.
  - intros Hn. unfold dict_get. rewrite (Hp Hn). reflexivity.
Qed.

Lemma entry_points_agree_witness :
  normalize_request_usage
    (Some (<["request_tokens" := PyInt 10]>
             (<["response_tokens" := PyStr "20"]> ∅)))
  = (let! u := usage_from_dict
                 (<["request_tokens" := PyInt 10]>
                    (<["response_tokens" := PyStr "20"]> ∅))
     in Ok (Some u)).
Proof.
  apply entry_points_agree.
  - intros k v [<- | [<- | [<- | []]]] Hv; vm_compute in Hv;
      try discriminate Hv; injection Hv as <-; left; reflexivity.
  - intros H. vm_compute in H. discriminate H.
  - intros H. vm_compute in H. discriminate H.
Defined.

(** Where the two paths part: a value that is false and that [int()]
    refuses ([None], the empty string, a false object without integer
    conversion), alone under one of the three names, is read as 0 by
    [normalize_request_usage], which returns [NormalizedUsage(0, 0, 0)],
    while [usage_from_dict] raises what [int()] raises. *)
Theorem falsy_unconvertible_value_splits_paths
        (k : string) (v : pyval) (e : pyexc) :
  In k usage_attributes -> truthy v = false -> int v = Raise e ->
  normalize_request_usage (Some {[k := v]})
  = Ok (Some (mkNormalizedUsage 0 0 0))
  /\ usage_from_dict {[k := v]} = Raise e.
Proof.
  intros Hk Ht Hi. split.
  - apply normalize_Some_intro; apply read_usage_value_default;
      unfold missing_or_falsy;
      match goal with
      | |- match _ !! ?a with _ => _ end =>
          destruct (decide (k = a)) as [Heq | Hne];
          [ rewrite Heq, lookup_singleton_eq; exact Ht
          | rewrite lookup_singleton_ne by exact Hne; exact I ]
      end.
  - rewrite usage_from_dict_locals.
    unfold usage_attributes, USAGE_ATTR_REQUEST_TOKENS,
      USAGE_ATTR_RESPONSE_TOKENS, USAGE_ATTR_CACHED_TOKENS in Hk.
    destruct Hk as [<- | [<- | [<- | []]]].
    + rewrite (request_local_canonical _ v) by apply lookup_singleton_eq.
      rewrite Hi. reflexivity.
    + rewrite request_local_default
        by (rewrite lookup_singleton_ne by discriminate; reflexivity).
      rewrite (response_local_canonical _ v) by apply lookup_singleton_eq.
      rewrite Hi. reflexivity.
    + rewrite request_local_default
        by (rewrite lookup_singleton_ne by discriminate; reflexivity).
      rewrite response_local_default
        by (rewrite lookup_singleton_ne by discriminate; reflexivity).
      rewrite (cached_local_present _ v) by apply lookup_singleton_eq.
      rewrite Hi. reflexivity.
Qed.

Lemma falsy_unconvertible_value_splits_paths_witness :
  normalize_request_usage (Some {["response_tokens" := PyNone]})
  = Ok (Some (mkNormalizedUsage 0 0 0))
  /\ usage_from_dict {["response_tokens" := PyNone]} = Raise TypeError.
Proof.
  apply falsy_unconvertible_value_splits_paths;
    [simpl; tauto | reflexivity | reflexivity].
Defined.

(** Integer counts go through unchanged on both paths: when the three
    canonical names hold integers, both entry points return exactly those
    integers (0 included, although it is read through the default). *)
Theorem integer_counts_are_copied (o : gmap string pyval) (a b c : Z) :
  o !! "request_tokens" = Some (PyInt a) ->
  o !! "response_tokens" = Some (PyInt b) ->
  o !! "cached_tokens" = Some (PyInt c) ->
  normalize_request_usage (Some o) = Ok (Some (mkNormalizedUsage a b c))
  /\ usage_from_dict o = Ok (mkNormalizedUsage a b c).
Proof.
  intros Ha Hb Hc. split.
  - apply normalize_Some_intro; apply read_usage_value_int; assumption.
  - apply usage_from_dict_Ok_intro.
    + rewrite (request_local_canonical o _ Ha). reflexivity.
    + rewrite (response_local_canonical o _ Hb). reflexivity.
    + rewrite (cached_local_present o _ Hc). reflexivity.
Qed.

Lemma integer_counts_are_copied_witness :
  normalize_request_usage
    (Some (<["request_tokens" := PyInt 0]>
             (<["response_tokens" := PyInt 20]>
                (<["cached_tokens" := PyInt 3]> ∅))))
  = Ok (Some (mkNormalizedUsage 0 20 3))
  /\ usage_from_dict
       (<["request_tokens" := PyInt 0]>
          (<["response_tokens" := PyInt 20]>
             (<["cached_tokens" := PyInt 3]> ∅)))
     = Ok (mkNormalizedUsage 0 20 3).
Proof. apply integer_counts_are_copied; vm_compute; reflexivity. Defined.

(** Normalising is idempotent: a [NormalizedUsage] handed to
    [normalize_request_usage] as the usage object comes back unchanged. *)
Theorem normalize_request_usage_idempotent (u : NormalizedUsage) :
  normalize_request_usage (Some (as_object u)) = Ok (Some u).
Proof.
  destruct u as [a b c]. unfold as_object. simpl.
  apply normalize_Some_intro; apply read_usage_value_int.
  - apply lookup_insert_eq.
  - rewrite lookup_insert_ne by discriminate. apply lookup_insert_eq.
  - rewrite !lookup_insert_ne by discriminate. apply lookup_insert_eq.
Qed.

End UsagePaths.

(** ** Where a count comes from, and the serialised form *)

Section UsageValues.
Import Py usage.

Lemma read_usage_value_nonzero (o : pyobject) (a : string) (z : Z) :
  _read_usage_value o a = Ok z -> z <> 0 ->
  exists v, o !! a = Some v /\ truthy v = true /\ int v = Ok z.
Proof.
  intros H Hz. rewrite read_usage_value_cases in H.
  destruct (o !! a) as [v |]; [| congruence].
  destruct (truthy v) eqn:Et; [| congruence].
  exists v. auto.
Qed.

(** Neither normaliser invents a count: a field of the result that is not
    0 is [int()] of a value found in the input.  For
    [normalize_request_usage] the value stands under the attribute of
    that name and is true; for [usage_from_dict] it stands under the
    canonical key, or under the alternate key when the canonical one is
    absent. *)
Theorem nonzero_count_has_a_source :
  (forall (o : pyobject) u,
      normalize_request_usage (Some o) = Ok (Some u) ->
      (request_tokens u <> 0 ->
       exists v,
         o !! "request_tokens" = Some v /\ truthy v = true
         /\ int v = Ok (request_tokens u))
      /\ (response_tokens u <> 0 ->
          exists v,
            o !! "response_tokens" = Some v /\ truthy v = true
            /\ int v = Ok (response_tokens u))
      /\ (cached_tokens u <> 0 ->
          exists v,
            o !! "cached_tokens" = Some v /\ truthy v = true
            /\ int v = Ok (cached_tokens u)))
  /\ (forall (d : pydict) u,
        usage_from_dict d = Ok u ->
        (request_tokens u <> 0 ->
         exists v,
           (d !! "request_tokens" = Some v
            \/ (d !! "request_tokens" = None /\ d !! "prompt_tokens" = Some v))
           /\ int v = Ok (request_tokens u))
        /\ (response_tokens u <> 0 ->
            exists v,
              (d !! "response_tokens" = Some v
               \/ (d !! "response_tokens" = None
                   /\ d !! "completion_tokens" = Some v))
              /\ int v = Ok (response_tokens u))
        /\ (cached_tokens u <> 0 ->
            exists v,
              d !! "cached_tokens" = Some v
              /\ int v = Ok (cached_tokens u))).
Proof.
  split.
  - intros o u H.
    apply normalize_Some_inv in H as (u' & Hu & Hq & Hs & Hc).
    injection Hu as <-.
    repeat split; intros Hz; eapply read_usage_value_nonzero; eassumption.
  - intros d u H. apply usage_from_dict_Ok_inv in H as (Hq & Hs & Hc).
    unfold request_local, response_local, cached_local, dict_get in *.
    repeat split; intros Hz.
    + destruct (d !! "request_tokens") as [v |]; [eauto |].
      destruct (d !! "prompt_tokens") as [v |]; [eauto |].
      simpl in Hq. congruence.
    + destruct (d !! "response_tokens") as [v |]; [eauto |].
      destruct (d !! "completion_tokens") as [v |]; [eauto |].
      simpl in Hs. congruence.
    + destruct (d !! "cached_tokens") as [v |]; [eauto |].
      simpl in Hc. congruence.
Qed.

Lemma nonzero_count_has_a_source_witness :
  exists v,
    (<["cached_tokens" := PyBool true]> ∅ : pyobject) !! "cached_tokens"
    = Some v
    /\ truthy v = true
    /\ int v = Ok (cached_tokens (mkNormalizedUsage 0 0 1)).
Proof.
  assert (normalize_request_usage
            (Some (<["cached_tokens" := PyBool true]> ∅))
          = Ok (Some (mkNormalizedUsage 0 0 1))) as H
      by (vm_compute; reflexivity).
  apply (proj2 (proj2 (proj1 nonzero_count_has_a_source _ _ H))).
  discriminate.
Defined.

(** [to_dict] writes exactly the four keys [request_tokens],
    [response_tokens], [cached_tokens] and [total_tokens], every value an
    integer; the stored total is the sum of the stored request and
    response counts, the cached count staying out of it; and two usages
    with the same dict are the same usage. *)
Theorem to_dict_shape (u : usage.NormalizedUsage) :
  dom (to_dict u)
  = ({["request_tokens"; "response_tokens"; "cached_tokens";
       "total_tokens"]} : gset string)
  /\ (forall k v, to_dict u !! k = Some v -> exists z, v = PyInt z)
  /\ (exists a b c,
        to_dict u !! "request_tokens" = Some (PyInt a)
        /\ to_dict u !! "response_tokens" = Some (PyInt b)
        /\ to_dict u !! "cached_tokens" = Some (PyInt c)
        /\ to_dict u !! "total_tokens" = Some (PyInt (a + b)))
  /\ (forall u', to_dict u = to_dict u' -> u = u').
Proof.
  repeat apply conj.
  - unfold to_dict. rewrite !dom_insert_L, dom_empty_L. set_solver.
  - intros k v. unfold to_dict.
    rewrite !lookup_insert_Some, lookup_empty.
    intros [[_ <-] | [_ [[_ <-] | [_ [[_ <-] | [_ [[_ <-] | [_ H]]]]]]]];
      eauto; discriminate H.
  - exists (request_tokens u), (response_tokens u), (cached_tokens u).
    unfold to_dict, total_tokens. repeat split.
  - intros u' H.
    pose proof (usage_from_dict_to_dict u) as Hu.
    rewrite H, usage_from_dict_to_dict in Hu. congruence.
Qed.

End UsageValues.

(** ** Stream events built with their defaults *)

Section StreamDefaults.
Import streaming.

(** No two event classes share a default [kind], and no two members of
    [StreamEventKind] share a value, so on events built with the default
    the discriminator identifies the class. *)
Theorem default_kind_identifies_class :
  (forall c c', default_kind c = default_kind c' -> c = c')
  /\ (forall k k',
        StreamEventKind_value k = StreamEventKind_value k' -> k = k')
  /\ (forall k, exists c, default_kind c = k)
  /\ (forall e e',
        streaming.kind e = default_kind (type_of e) ->
        streaming.kind e' = default_kind (type_of e') ->
        streaming.kind e = streaming.kind e' -> type_of e = type_of e').
Proof.
  repeat apply conj.
  - intros c c'; destruct c, c'; simpl; intros H;
      first [reflexivity | discriminate H].
  - intros k k'; destruct k, k'; simpl; intros H;
      first [reflexivity | discriminate H].
  - intros k; destruct k;
      [ exists TextDeltaT | exists ToolCallDeltaT | exists ToolCallStartT
      | exists ToolCallEndT | exists ThoughtDeltaT | exists MessageStartT
      | exists MessageEndT | exists StreamErrorT ]; reflexivity.
  - intros e e' He He' H. rewrite He, He' in H.
    destruct (type_of e), (type_of e'); simpl in H;
      first [reflexivity | discriminate H].
Qed.

Lemma default_kind_identifies_class_witness :
  type_of (mkTextDelta "a") = type_of (mkTextDelta "b").
Proof.
  apply (proj2 (proj2 (proj2 default_kind_identifies_class)));
    reflexivity.
Defined.

(** On an event that carries the default [kind] of its class, what the
    classifiers decide by class can be read off the discriminator:
    [is_content_delta] holds exactly for the kinds [TEXT_DELTA] and
    [THOUGHT_DELTA], [is_tool_event] exactly for the three tool-call
    kinds. *)
Theorem classifiers_follow_default_kind (e : streaming.StreamEvent) :
  streaming.kind e = default_kind (type_of e) ->
  (is_content_delta e = true <->
     streaming.kind e = TEXT_DELTA \/ streaming.kind e = THOUGHT_DELTA)
  /\ (is_tool_event e = true <->
       streaming.kind e = TOOL_CALL_START
       \/ streaming.kind e = TOOL_CALL_DELTA
       \/ streaming.kind e = TOOL_CALL_END).
Proof.
  intros H. rewrite H.
  destruct e; simpl; split; split; intros H';
    first [reflexivity | discriminate H' | tauto
          | destruct H' as [H' | H']; try discriminate H';
            destruct H' as [H' | H']; discriminate H'].
Qed.

Lemma classifiers_follow_default_kind_witness :
  (is_content_delta (mkToolCallStart "id" "read_file") = true <->
     streaming.kind (mkToolCallStart "id" "read_file") = TEXT_DELTA
     \/ streaming.kind (mkToolCallStart "id" "read_file") = THOUGHT_DELTA)
  /\ (is_tool_event (mkToolCallStart "id" "read_file") = true <->
       streaming.kind (mkToolCallStart "id" "read_file") = TOOL_CALL_START
       \/ streaming.kind (mkToolCallStart "id" "read_file") = TOOL_CALL_DELTA
       \/ streaming.kind (mkToolCallStart "id" "read_file") = TOOL_CALL_END).
Proof. apply classifiers_follow_default_kind. reflexivity. Defined.

End StreamDefaults.

(** ** Node kinds *)

Section NodeKinds.
Import runner.

(** The five node kinds are pairwise distinct, so no node is both a model
    request and an end node, and a node whose [kind] is one of the other
    three constants is neither. *)
Theorem node_kind_queries_exclusive (n : runner.AgentNode) :
  NoDup NodeKind.members
  /\ is_model_request n && is_end n = false
  /\ (is_model_request n || is_end n = true ->
      In (runner.kind n) NodeKind.members)
  /\ (In (runner.kind n)
         [NodeKind.MODEL_RESPONSE; NodeKind.TOOL_CALL; NodeKind.TOOL_RETURN] ->
      is_model_request n = false /\ is_end n = false).
Proof.
  repeat apply conj.
  - unfold NodeKind.members. compute_done.
  - unfold is_model_request, is_end.
    destruct (String.eqb_spec (runner.kind n) NodeKind.MODEL_REQUEST)
      as [-> |]; reflexivity.
  - unfold is_model_request, is_end.
    intros H. apply orb_true_iff in H as [H | H];
      apply String.eqb_eq in H; rewrite H; simpl; tauto.
  - unfold is_model_request, is_end.
    intros [<- | [<- | [<- | []]]]; split; reflexivity.
Qed.

Lemma node_kind_queries_exclusive_witness :
  is_model_request (newAgentNode "tool-call") = false
  /\ is_end (newAgentNode "tool-call") = false.
Proof.
  apply (proj2 (proj2 (proj2
           (node_kind_queries_exclusive (newAgentNode "tool-call"))))).
  simpl. tauto.
Defined.

End NodeKinds.
